(** * Bayesian election-forecast notebooks: a shallow embedding

    The repository consists of two Jupyter notebooks.

    - The walkthrough notebook plots a Beta prior, a Binomial likelihood and
      their product ([plot_beta_binomial]), then draws 100,000 values from the
      Beta posterior with [np.random.beta(a + k, b + (n - k), 100000)],
      turns each draw into a simulated election with
      [[1 if i > 0.5 else 0 for i in p_d]] and averages the list with
      [np.mean].
    - The dashboard notebook builds two frequency dictionaries in
      [histogram] from an array of simulated seat counts.

    Numbers: Python integers are unbounded, so they are [Z].  Floating-point
    values are modelled by exact rationals [Q]; rounding is not modelled, and
    the one special float value the code can produce, NaN, is a constructor of
    its own ([npfloat]).  Calls that Python may abort with an exception return
    an [outcome]. *)

From Stdlib Require Import ZArith QArith Qpower Qminmax Qfield Lia List.
From stdpp Require Import base gmap sets list fin_sets fin_maps strings.
Import ListNotations.

(** ** Python evaluation outcomes *)

(** The built-in exceptions the modelled expressions can raise:
    [ZeroDivisionError] by [/] on a zero divisor, [ValueError] by [max] on an
    empty sequence and by numpy on an argument outside its domain. *)
Inductive exception : Set :=
| ZeroDivisionError
| ValueError.

Inductive outcome (A : Type) : Type :=
| Returns (a : A)
| Raises (e : exception).

Arguments Returns {A} a.
Arguments Raises {A} e.

(** Sequencing: the first exception raised aborts the rest.  With these
    instances [x ← o; k] reads as Python's evaluation order. *)
#[global] Instance outcome_ret : MRet outcome := fun A a => Returns a.

#[global] Instance outcome_bind : MBind outcome := fun A B k o =>
  match o with
  | Returns a => k a
  | Raises e => Raises e
  end.

(** A float64 value as the code can observe it: a finite number, or NaN. *)
Inductive npfloat : Type :=
| Finite (q : Q)
| NaN.

(** [x / y] on Python numbers: true division, raising on a zero divisor. *)
Definition py_div (x y : Q) : outcome Q :=
  if Qeq_bool y 0 then Raises ZeroDivisionError else Returns (x / y)%Q.

(** ** Posterior parameters *)

(** Shape of a Beta distribution, as in the comments [# Beta(7, 5)]. *)
Record BetaParams : Type := { alpha : Q; beta : Q }.

(** One poll, as in the comments [# Binomial(40, 30)]: [trials] people asked,
    [successes] of them in favour. *)
Record SurveyObservation : Type := { trials : Z; successes : Z }.

(** The two shape arguments of the sampling cells,

      [np.random.beta(7 + 30, 5 + (40-30), 100000)]
      [np.random.beta(10 + 55, 40 + (100-55), 100000)]

    with the literals named: a Beta(alpha, beta) prior and a Binomial(n, k)
    observation give Beta(alpha + k, beta + (n - k)).  The code applies no
    check to any of the four numbers. *)
Definition update (prior : BetaParams) (obs : SurveyObservation) : BetaParams :=
  {| alpha := alpha prior + inject_Z (successes obs);
     beta := beta prior + inject_Z (trials obs - successes obs) |}.

(** Mean of a Beta distribution, the [a / (a + b)] of the plotting cells. *)
Definition beta_mean (p : BetaParams) : outcome Q :=
  py_div (alpha p) (alpha p + beta p).

(** The preconditions the specification puts on [update]. *)
Definition valid_params (p : BetaParams) : Prop :=
  (0 < alpha p)%Q /\ (0 < beta p)%Q.

Definition valid_observation (o : SurveyObservation) : Prop :=
  (0 <= successes o <= trials o)%Z.


Definition Qpos_bool (q : Q) : bool := negb (Qle_bool q 0).


(** ** Simulated elections *)

(** Python's [i > threshold] on two finite floats. *)
Definition Qgt_bool (x y : Q) : bool := negb (Qle_bool x y).

(** [1 if i > 0.5 else 0], with the literal [0.5] named [threshold]. *)
Definition election_outcome (threshold i : Q) : Z :=
  if Qgt_bool i threshold then 1%Z else 0%Z.

(** [[1 if i > threshold else 0 for i in p_d]]. *)
Definition elections_at (threshold : Q) (p_d : list Q) : list Z :=
  map (election_outcome threshold) p_d.

(** The cell as written: [elections = [1 if i > 0.5 else 0 for i in p_d]]. *)
Definition elections (p_d : list Q) : list Z := elections_at (1 # 2) p_d.

Definition np_sum (l : list Z) : Z := fold_right Z.add 0%Z l.

(** [np.mean] of a list of integers: the sum over the number of elements.
    numpy divides in floating point, so an empty list gives [0.0 / 0]: it
    warns, raises nothing and returns NaN. *)
Definition np_mean (l : list Z) : npfloat :=
  match l with
  | [] => NaN
  | _ :: _ => Finite (inject_Z (np_sum l) / inject_Z (Z.of_nat (length l)))%Q
  end.

(** The two cells in sequence: [np.mean(elections)]. *)
Definition winProbability (sample : list Q) (threshold : Q) : npfloat :=
  np_mean (elections_at threshold sample).

(** The number of sample values strictly above the threshold, counted
    directly on the sample; the theorems compare the code's mean with it. *)
Definition wins (threshold : Q) (sample : list Q) : nat :=
  length (List.filter (fun i => Qgt_bool i threshold) sample).

(** ** Seeded sampling *)

(** numpy's generator is not part of the repository: its state type, the
    state that [np.random.seed(s)] installs and the algorithm for one Beta
    variate are parameters.  What the model fixes is how the cell uses them:
    the generator is one global state, [np.random.seed] overwrites it, and
    each draw reads and advances it. *)
Section Generator.
Variable rng : Type.
Variable mt_seed : Z -> rng.
Variable beta_variate : Q -> Q -> rng -> Q * rng.

(** [np.random.seed(s)]: rejects a seed outside [0, 2**32 - 1]. *)
Definition np_random_seed (s : Z) (g : rng) : outcome unit * rng :=
  if ((0 <=? s) && (s <? 2 ^ 32))%Z then (Returns tt, mt_seed s)
  else (Raises ValueError, g).

Fixpoint beta_variates (a b : Q) (n : nat) (g : rng) : list Q * rng :=
  match n with
  | O => ([], g)
  | S n' =>
      let (x, g1) := beta_variate a b g in
      let (xs, g2) := beta_variates a b n' g1 in
      (x :: xs, g2)
  end.

(** [np.random.beta(a, b, size)]: rejects [a <= 0], [b <= 0] and a
    negative size before drawing anything. *)
Definition np_random_beta (a b : Q) (size : Z) (g : rng)
  : outcome (list Q) * rng :=
  if Qle_bool a 0 || Qle_bool b 0 || (size <? 0)%Z then (Raises ValueError, g)
  else
    let (xs, g') := beta_variates a b (Z.to_nat size) g in
    (Returns xs, g').

(** The sampling cell: [np.random.seed(seed)] and then
    [p_d = np.random.beta(alpha, beta, count)], run from the global
    generator state [g]. *)
Definition sample (params : BetaParams) (count seed : Z) (g : rng)
  : outcome (list Q) * rng :=
  match np_random_seed seed g with
  | (Returns _, g1) => np_random_beta (alpha params) (beta params) count g1
  | (Raises e, g1) => (Raises e, g1)
  end.
End Generator.

(** ** plot_beta_binomial *)

(** [x / y] on two Python integers. *)
Definition py_div_int (x y : Z) : outcome Q :=
  py_div (inject_Z x) (inject_Z y).

(** Python's [max] of a sequence. *)
Definition py_max (l : list Q) : outcome Q :=
  match l with
  | [] => Raises ValueError
  | x :: r => Returns (fold_left Qmax r x)
  end.

(** [np.linspace(0, 1, num)]: [num] evenly spaced points, both ends
    included ([num = 1] gives the single point 0). *)
Definition np_linspace_unit (num : Z) : outcome (list Q) :=
  if (num <? 0)%Z then Raises ValueError
  else Returns (map (fun i => inject_Z (Z.of_nat i) / inject_Z (num - 1))%Q
                    (seq 0 (Z.to_nat num))).

Fixpoint factorial (n : nat) : Z :=
  match n with
  | O => 1
  | S m => Z.of_nat n * factorial m
  end.

Definition fact_Z (z : Z) : Z := factorial (Z.to_nat z).

(** The binomial coefficient [n! / (k! (n-k)!)], for [0 <= k <= n]. *)
Definition choose (n k : Z) : Z := (fact_Z n / (fact_Z k * fact_Z (n - k)))%Z.

(** The Beta function at integer arguments,
    [B(a, b) = (a-1)! (b-1)! / (a+b-1)!]. *)
Definition beta_fn (a b : Z) : Q :=
  (inject_Z (fact_Z (a - 1) * fact_Z (b - 1)) / inject_Z (fact_Z (a + b - 1)))%Q.

Definition in_unit_interval (x : Q) : bool := Qle_bool 0 x && Qle_bool x 1.

(** [scipy.stats.beta(a, b).pdf(x)], from its documented closed form
    [x^(a-1) (1-x)^(b-1) / B(a, b)] on [0, 1] and 0 elsewhere.  Modelled for
    integer shapes [a, b >= 1], which is what every call in the notebook
    passes. *)
Definition beta_pdf (a b : Z) (x : Q) : Q :=
  if in_unit_interval x then
    (x ^ (a - 1) * (1 - x) ^ (b - 1) / beta_fn a b)%Q
  else 0%Q.

(** [scipy.stats.binom(n, p).pmf(k)], from its documented closed form
    [choose(n, k) p^k (1-p)^(n-k)] for [0 <= k <= n] and 0 for other [k].
    Modelled for [n >= 0] and [p] in [0, 1]. *)
Definition binom_pmf (n : Z) (p : Q) (k : Z) : Q :=
  if ((0 <=? k) && (k <=? n))%Z then
    (inject_Z (choose n k)
     * p ^ k * (1 - p) ^ (n - k))%Q
  else 0%Q.

(** [np.multiply] on two sequences of the same length. *)
Definition np_multiply (xs ys : list Q) : list Q := zip_with Qmult xs ys.

(** What [plot_beta_binomial] hands to matplotlib: the three curves over
    [lst] and the three dashed vertical lines. *)
Record figure : Type := {
  lst : list Q;
  prior : list Q;
  likelihood : list Q;
  posterior : list Q;
  vlines_x : list Q;
  vlines_ymax : Q
}.

(** The positions of the dashed lines,
    [[a / (a + b), n_successes / n_trials,
      (a + n_successes) / (a + b + n_trials)]],
    evaluated left to right. *)
Definition vlines_positions (a b n_trials n_successes : Z) : outcome (list Q) :=
  m_prior ← py_div_int a (a + b);
  m_likelihood ← py_div_int n_successes n_trials;
  m_posterior ← py_div_int (a + n_successes) (a + b + n_trials);
  mret [m_prior; m_likelihood; m_posterior].

Definition plot_beta_binomial (a b n_trials n_successes n_steps : Z)
  : outcome figure :=
  lst ← np_linspace_unit n_steps;
  let prior := map (beta_pdf a b) lst in
  let likelihood := map (fun i => binom_pmf n_trials i n_successes) lst in
  let posterior := np_multiply prior likelihood in
  xs ← vlines_positions a b n_trials n_successes;
  top_prior ← py_max prior;
  top_likelihood ← py_max likelihood;
  top_posterior ← py_max posterior;
  mret {| lst := lst; prior := prior; likelihood := likelihood;
          posterior := posterior; vlines_x := xs;
          vlines_ymax := Qmax (Qmax top_prior top_likelihood) top_posterior |}.


(** ** histogram *)

(** [list(simulations).count(i)]. *)
Definition py_count (i : Z) (simulations : list Z) : nat :=
  length (filter (λ j, j = i) simulations).

(** [{i: list(simulations).count(i) for i in set(simulations) if i > 50}].
    Iterating a Python set visits each distinct value once, in an order the
    resulting dictionary does not depend on. *)
Definition hist_dict_dem (simulations : list Z) : gmap Z nat :=
  set_to_map (λ i, (i, py_count i simulations))
             (filter (λ i, (50 < i)%Z) (list_to_set simulations : gset Z)).

(** [{i: list(simulations).count(i) for i in set(simulations) if i <= 50}]. *)
Definition hist_dict_rep (simulations : list Z) : gmap Z nat :=
  set_to_map (λ i, (i, py_count i simulations))
             (filter (λ i, (i <= 50)%Z) (list_to_set simulations : gset Z)).

(** [list(d.keys())] and [list(d.values())], the bar positions and heights
    given to [p.vbar]; both list the items in the same order. *)
Definition dict_keys (d : gmap Z nat) : list Z := (map_to_list d).*1.
Definition dict_values (d : gmap Z nat) : list nat := (map_to_list d).*2.

(** The arguments of one [p.vbar] call: bar positions [x] and heights
    [top]. *)
Record vbar : Type := { vbar_x : list Z; vbar_top : list nat }.

(** What [histogram] draws: the bars of the Democratic side (blue), built
    from [hist_dict_dem], and those of the Republican side (red), built from
    [hist_dict_rep]. *)
Definition histogram (simulations : list Z) : vbar * vbar :=
  let dem := hist_dict_dem simulations in
  let rep := hist_dict_rep simulations in
  ({| vbar_x := dict_keys dem; vbar_top := dict_values dem |},
   {| vbar_x := dict_keys rep; vbar_top := dict_values rep |}).

(** ** map_results *)

(** One entry of Bokeh's [us_states] sample data, with the three fields the
    function reads: ['name'], ['lons'] and ['lats']. *)
Record state : Type := { name : string; lons : list Q; lats : list Q }.

(** The column dictionary [data] handed to [p.patches]. *)
Record patches_data : Type := {
  data_x : list (list Q);
  data_y : list (list Q);
  data_name : list string;
  data_demrate : list Q
}.

(** [{state: values for state, values in states.items()
      if state != 'AK' and state != 'HI'}]. *)
Definition drop_AK_HI (states : gmap string state) : gmap string state :=
  filter (λ kv, kv.1 ≠ "AK"%string ∧ kv.1 ≠ "HI"%string) states.

(** [states.values()] of a dictionary. *)
Definition state_values (states : gmap string state) : list state :=
  (map_to_list states).*2.

Section Dashboard.
Variable rng : Type.
Variable uniform_variate : rng -> Q * rng.

(** [np.random.uniform(0, 1, size)], drawing from the global generator;
    the algorithm for one variate is numpy's and a parameter here. *)
Fixpoint np_random_uniform_unit (size : nat) (g : rng) : list Q * rng :=
  match size with
  | O => ([], g)
  | S n =>
      let (u, g1) := uniform_variate g in
      let (us, g2) := np_random_uniform_unit n g1 in
      (u :: us, g2)
  end.

(** The data that [map_results] prepares: the three columns read from the
    remaining states, and 49 random percentages
    [100 * np.random.uniform(0, 1, 49)]. *)
Definition map_results (states : gmap string state) (g : rng)
  : patches_data * rng :=
  let states := drop_AK_HI states in
  let state_longs := map lons (state_values states) in
  let state_lats := map lats (state_values states) in
  let state_names := map name (state_values states) in
  let (us, g') := np_random_uniform_unit 49 g in
  ({| data_x := state_longs;
      data_y := state_lats;
      data_name := state_names;
      data_demrate := map (Qmult 100) us |}, g').
End Dashboard.

(** ** Theorems *)

Lemma Qpos_bool_iff (q : Q) : Qpos_bool q = true <-> (0 < q)%Q.
Proof.
  unfold Qpos_bool. rewrite negb_true_iff.
  split.
  - intros Hb. apply Qnot_le_lt. intros Hle.
    apply Qle_bool_iff in Hle. congruence.
  - intros Hlt. destruct (Qle_bool q 0) eqn:E; [|reflexivity].
    apply Qle_bool_iff in E. exfalso. exact (Qlt_not_le _ _ Hlt E).
Qed.

Lemma inject_Z_nonneg (z : Z) : (0 <= z)%Z -> (0 <= inject_Z z)%Q.
Proof. intros Hz. change 0%Q with (inject_Z 0). now rewrite <- Zle_Qle. Qed.

(** C1. For a prior with positive shape parameters and an observation with
    [0 <= successes <= trials], [update] returns
    [alpha + successes] and [beta + (trials - successes)], and both are
    strictly positive. *)
Theorem update_conjugate (prior : BetaParams) (obs : SurveyObservation) :
  valid_params prior ->
  valid_observation obs ->
  update prior obs =
    {| alpha := alpha prior + inject_Z (successes obs);
       beta := beta prior + inject_Z (trials obs - successes obs) |}
  /\ (0 < alpha (update prior obs))%Q
  /\ (0 < beta (update prior obs))%Q.
Proof.
  intros [Ha Hb] [Hk Hn].
  split; [reflexivity|].
  cbn [update alpha beta].
  split.
  - rewrite <- (Qplus_0_r 0).
    apply Qplus_lt_le_compat; [exact Ha|].
    now apply inject_Z_nonneg.
  - rewrite <- (Qplus_0_r 0).
    apply Qplus_lt_le_compat; [exact Hb|].
    apply inject_Z_nonneg. lia.
Qed.

Lemma update_conjugate_witness :
  update {| alpha := 7; beta := 5 |} {| trials := 40; successes := 30 |} =
    {| alpha := 7 + inject_Z 30; beta := 5 + inject_Z (40 - 30) |}
  /\ (0 < alpha (update {| alpha := 7; beta := 5 |}
                        {| trials := 40; successes := 30 |}))%Q
  /\ (0 < beta (update {| alpha := 7; beta := 5 |}
                       {| trials := 40; successes := 30 |}))%Q.
Proof.
  apply (update_conjugate {| alpha := 7; beta := 5 |}
                          {| trials := 40; successes := 30 |}).
  - split; reflexivity.
  - split; cbn; lia.
Defined.

(** C4. Scenario 1: the prior Beta(7, 5) and the observation of 30 successes
    in 40 trials give the posterior Beta(37, 15); its mean
    [alpha / (alpha + beta)] is 37/52, which is also where
    [plot_beta_binomial(a = 7, b = 5, n_trials = 40, n_successes = 30)] puts
    its third dashed line. *)
Theorem scenario1_posterior :
  update {| alpha := 7; beta := 5 |} {| trials := 40; successes := 30 |}
    = {| alpha := 37; beta := 15 |}
  /\ beta_mean (update {| alpha := 7; beta := 5 |}
                       {| trials := 40; successes := 30 |})
     = Returns (37 # 52)
  /\ vlines_positions 7 5 40 30 = Returns [7 # 12; 30 # 40; 37 # 52].
Proof. repeat split; vm_compute; reflexivity. Qed.

(** *** The election indicator *)

Lemma Qgt_bool_iff (x y : Q) : Qgt_bool x y = true <-> (y < x)%Q.
Proof.
  unfold Qgt_bool. rewrite negb_true_iff. split.
  - intros Hb. apply Qnot_le_lt. intros Hle.
    apply Qle_bool_iff in Hle. congruence.
  - intros Hlt. destruct (Qle_bool x y) eqn:E; [|reflexivity].
    apply Qle_bool_iff in E. exfalso. exact (Qlt_not_le _ _ Hlt E).
Qed.

Lemma election_outcome_win (threshold i : Q) :
  election_outcome threshold i = 1%Z <-> (threshold < i)%Q.
Proof.
  unfold election_outcome. rewrite <- Qgt_bool_iff.
  destruct (Qgt_bool i threshold); split; intros H; congruence.
Qed.

Lemma election_outcome_tie (threshold i : Q) :
  (i == threshold)%Q -> election_outcome threshold i = 0%Z.
Proof.
  intros Heq. unfold election_outcome.
  destruct (Qgt_bool i threshold) eqn:E; [|reflexivity].
  apply Qgt_bool_iff in E. rewrite Heq in E.
  exfalso. exact (Qlt_irrefl _ E).
Qed.

Lemma map_lookup {A B : Type} (f : A -> B) (l : list A) (j : nat) :
  map f l !! j = f <$> l !! j.
Proof. revert j. induction l as [|x xs IH]; intros [|j]; cbn; auto. Qed.

Lemma elections_at_lookup (threshold : Q) (sample : list Q) (j : nat) :
  elections_at threshold sample !! j
  = election_outcome threshold <$> sample !! j.
Proof. apply map_lookup. Qed.

(** C2. The comparison is strict.  Whatever the sample and the threshold, the
    election simulated from a value equal to the threshold is a loss (0), and
    an election is a win (1) exactly when its value is strictly above the
    threshold. *)
Theorem threshold_strict (threshold : Q) (sample : list Q) (j : nat) (i : Q) :
  sample !! j = Some i ->
  ((i == threshold)%Q -> elections_at threshold sample !! j = Some 0%Z)
  /\ (elections_at threshold sample !! j = Some 1%Z <-> (threshold < i)%Q).
Proof.
  intros Hj. rewrite elections_at_lookup, Hj. cbn. split.
  - intros Heq. f_equal. now apply election_outcome_tie.
  - rewrite <- election_outcome_win. split; intros H; congruence.
Qed.

Lemma threshold_strict_witness :
  ((1 # 2 == 1 # 2)%Q ->
   elections_at (1 # 2) [3 # 4; 1 # 2] !! 1%nat = Some 0%Z)
  /\ (elections_at (1 # 2) [3 # 4; 1 # 2] !! 1%nat = Some 1%Z
      <-> (1 # 2 < 1 # 2)%Q).
Proof.
  apply (threshold_strict (1 # 2) [3 # 4; 1 # 2] 1%nat (1 # 2)).
  reflexivity.
Defined.

(** The cell with its literal threshold: 0.5 itself is a loss. *)
Example elections_at_one_half :
  elections [3 # 4; 1 # 2; 1 # 4] = [1; 0; 0]%Z.
Proof. reflexivity. Qed.

(** *** The mean of the indicator list *)

Lemma elections_at_length (threshold : Q) (sample : list Q) :
  length (elections_at threshold sample) = length sample.
Proof. unfold elections_at. apply length_map. Qed.

Lemma np_sum_cons (z : Z) (l : list Z) : np_sum (z :: l) = (z + np_sum l)%Z.
Proof. reflexivity. Qed.

Lemma np_sum_elections (threshold : Q) (sample : list Q) :
  np_sum (elections_at threshold sample) = Z.of_nat (wins threshold sample).
Proof.
  induction sample as [|x xs IH]; [reflexivity|].
  change (elections_at threshold (x :: xs))
    with (election_outcome threshold x :: elections_at threshold xs).
  rewrite np_sum_cons, IH.
  unfold wins, election_outcome. cbn [List.filter].
  destruct (Qgt_bool x threshold); cbn [length]; lia.
Qed.

Lemma wins_le_length (threshold : Q) (sample : list Q) :
  (wins threshold sample <= length sample)%nat.
Proof.
  unfold wins. induction sample as [|x xs IH]; cbn; [lia|].
  destruct (Qgt_bool x threshold); cbn; lia.
Qed.

Lemma fraction_in_unit (w n : nat) :
  (w <= n)%nat -> (0 < n)%nat ->
  (0 <= inject_Z (Z.of_nat w) / inject_Z (Z.of_nat n)
   /\ inject_Z (Z.of_nat w) / inject_Z (Z.of_nat n) <= 1)%Q.
Proof.
  intros Hw Hn.
  assert (Hpos : (0 < inject_Z (Z.of_nat n))%Q).
  { change 0%Q with (inject_Z 0). rewrite <- Zlt_Qlt. lia. }
  split.
  - apply Qle_shift_div_l; [exact Hpos|].
    rewrite Qmult_0_l. apply inject_Z_nonneg. lia.
  - apply Qle_shift_div_r; [exact Hpos|].
    rewrite Qmult_1_l. rewrite <- Zle_Qle. lia.
Qed.



(** *** Validation *)





(** An invalid observation can also go unnoticed further down: 15 successes
    in 10 trials against Beta(7, 20) give Beta(22, 15), a valid shape. *)
Example update_invalid_observation_valid_shape :
  update {| alpha := 7; beta := 20 |} {| trials := 10; successes := 15 |}
  = {| alpha := 22; beta := 15 |}.
Proof. reflexivity. Qed.

(** C7, as the code has it.  [np.mean] of the empty indicator list is NaN and
    nothing is raised; the empty sample is the only one with that result. *)
Theorem winProbability_nan_iff_empty (sample : list Q) (threshold : Q) :
  winProbability sample threshold = NaN <-> sample = [].
Proof.
  unfold winProbability. destruct sample as [|x xs]; cbn.
  - split; reflexivity.
  - split; discriminate.
Qed.

(** C7 fails on the code.  On the empty sample the estimate is the NaN
    sentinel, not an error. *)
Lemma winProbability_empty_is_nan :
  winProbability [] (1 # 2) = NaN.
Proof. reflexivity. Qed.

(** *** Seeded draws *)

Section GeneratorFacts.
Variable rng : Type.
Variable mt_seed : Z -> rng.
Variable beta_variate : Q -> Q -> rng -> Q * rng.

Lemma beta_variates_length (a b : Q) (n : nat) (g : rng) :
  length (beta_variates rng beta_variate a b n g).1 = n.
Proof.
  revert g. induction n as [|n IH]; intros g; [reflexivity|].
  cbn [beta_variates].
  destruct (beta_variate a b g) as [x g1].
  specialize (IH g1).
  destruct (beta_variates rng beta_variate a b n g1) as [xs g2].
  cbn in *. now rewrite IH.
Qed.

(** With a seed numpy accepts, the state the draw starts from is the one
    the seed installs, whatever the generator held before. *)
Lemma sample_from_seed (params : BetaParams) (count seed : Z) (g : rng) :
  (0 <= seed < 2 ^ 32)%Z ->
  sample rng mt_seed beta_variate params count seed g
  = np_random_beta rng beta_variate (alpha params) (beta params) count
                   (mt_seed seed).
Proof.
  intros [Hlo Hhi]. unfold sample, np_random_seed.
  destruct (Z.leb_spec 0 seed); [|lia].
  destruct (Z.ltb_spec seed (2 ^ 32)); [|lia].
  reflexivity.
Qed.

(** C8. Two runs of the sampling cell with the same parameters, count and
    seed produce the same outcome, whatever state the global generator was
    in before each run: the same sequence, or the same exception when
    numpy rejects an argument. *)
Theorem sample_deterministic (params : BetaParams) (count seed : Z)
    (g1 g2 : rng) :
  (sample rng mt_seed beta_variate params count seed g1).1
  = (sample rng mt_seed beta_variate params count seed g2).1.
Proof.
  unfold sample, np_random_seed.
  destruct ((0 <=? seed)%Z && (seed <? 2 ^ 32)%Z); [|reflexivity].
  reflexivity.
Qed.

(** For a valid shape, a positive count and a seed numpy accepts, that
    outcome is a sequence of [count] draws. *)
Lemma sample_returns (params : BetaParams) (count seed : Z) (g : rng) :
  valid_params params -> (0 < count)%Z -> (0 <= seed < 2 ^ 32)%Z ->
  exists xs,
    (sample rng mt_seed beta_variate params count seed g).1 = Returns xs
    /\ length xs = Z.to_nat count.
Proof.
  intros [Ha Hb] Hc Hs. rewrite sample_from_seed by exact Hs.
  unfold np_random_beta.
  apply Qpos_bool_iff in Ha, Hb. unfold Qpos_bool in Ha, Hb.
  apply negb_true_iff in Ha, Hb. rewrite Ha, Hb.
  destruct (Z.ltb_spec count 0); [lia|]. cbn [orb].
  pose proof (beta_variates_length (alpha params) (beta params)
                (Z.to_nat count) (mt_seed seed)) as Hlen.
  destruct (beta_variates rng beta_variate (alpha params) (beta params)
              (Z.to_nat count) (mt_seed seed)) as [xs g'].
  exists xs. split; [reflexivity|exact Hlen].
Qed.
End GeneratorFacts.

(** *** The plotted posterior *)











Lemma py_div_int_returns (x y : Z) :
  y <> 0%Z -> py_div_int x y = Returns (inject_Z x / inject_Z y)%Q.
Proof.
  intros Hy. unfold py_div_int, py_div.
  destruct (Qeq_bool (inject_Z y) 0) eqn:E; [|reflexivity].
  apply Qeq_bool_eq in E. exfalso. apply Hy.
  unfold Qeq in E. cbn in E. lia.
Qed.

Lemma np_linspace_unit_returns (num : Z) :
  (0 < num)%Z ->
  exists x xs, np_linspace_unit num = Returns (x :: xs).
Proof.
  intros Hnum. unfold np_linspace_unit.
  destruct (Z.ltb_spec num 0); [lia|].
  destruct (Z.to_nat num) as [|m] eqn:E; [lia|].
  cbn [seq map]. eauto.
Qed.





(** Without a grid point the call ends in [max] of an empty sequence. *)
Example plot_beta_binomial_no_steps :
  plot_beta_binomial 7 5 40 30 0 = Raises ValueError.
Proof. vm_compute. reflexivity. Qed.

(** Scenario 2: the prior Beta(10, 40) and 55 successes in 100 trials give
    the posterior Beta(65, 85), with mean 65/150. *)
Lemma scenario2_posterior :
  update {| alpha := 10; beta := 40 |} {| trials := 100; successes := 55 |}
    = {| alpha := 65; beta := 85 |}
  /\ beta_mean (update {| alpha := 10; beta := 40 |}
                       {| trials := 100; successes := 55 |})
     = Returns (65 # 150)
  /\ vlines_positions 10 40 100 55 = Returns [10 # 50; 55 # 100; 65 # 150].
Proof. repeat split; vm_compute; reflexivity. Qed.

(** *** The two frequency dictionaries *)

Section Histogram.
Variable simulations : list Z.

Lemma hist_dict_dem_lookup (i : Z) (c : nat) :
  hist_dict_dem simulations !! i = Some c
  <-> i ∈ simulations /\ (50 < i)%Z /\ c = py_count i simulations.
Proof.
  unfold hist_dict_dem.
  rewrite lookup_set_to_map by (intros y y' _ _ H; exact H).
  split.
  - intros (y & Hy & E). injection E as -> <-.
    apply elem_of_filter in Hy as [Hgt Hin].
    apply elem_of_list_to_set in Hin. auto.
  - intros (Hin & Hgt & ->). exists i. split; [|reflexivity].
    apply elem_of_filter. split; [exact Hgt|].
    now apply elem_of_list_to_set.
Qed.

Lemma hist_dict_rep_lookup (i : Z) (c : nat) :
  hist_dict_rep simulations !! i = Some c
  <-> i ∈ simulations /\ (i <= 50)%Z /\ c = py_count i simulations.
Proof.
  unfold hist_dict_rep.
  rewrite lookup_set_to_map by (intros y y' _ _ H; exact H).
  split.
  - intros (y & Hy & E). injection E as -> <-.
    apply elem_of_filter in Hy as [Hle Hin].
    apply elem_of_list_to_set in Hin. auto.
  - intros (Hin & Hle & ->). exists i. split; [|reflexivity].
    apply elem_of_filter. split; [exact Hle|].
    now apply elem_of_list_to_set.
Qed.
End Histogram.

(** Counting the occurrences of each of [x :: ks] (distinct values) is
    counting the elements that are among [x :: ks]. *)
Lemma count_step (x : Z) (ks l : list Z) :
  x ∉ ks ->
  py_count x l + length (filter (λ j, j ∈ ks) l)
  = length (filter (λ j, j ∈ x :: ks) l).
Proof.
  intros Hx. unfold py_count.
  induction l as [|y l IH]; [reflexivity|].
  rewrite !filter_cons.
  destruct (decide (y = x)) as [->|Hne].
  - rewrite decide_False by exact Hx.
    rewrite decide_True by constructor. cbn [length]. lia.
  - destruct (decide (y ∈ ks)) as [Hin|Hout].
    + rewrite decide_True by (now constructor). cbn [length]. lia.
    + rewrite decide_False; [exact IH|].
      intros Hin. apply elem_of_cons in Hin as [?|?]; auto.
Qed.

Lemma sum_counts (ks l : list Z) :
  NoDup ks ->
  sum_list_with (λ i, py_count i l) ks = length (filter (λ j, j ∈ ks) l).
Proof.
  induction 1 as [|x ks Hx Hnd IH]; cbn [sum_list_with].
  - induction l as [|y l IHl]; [reflexivity|].
    rewrite filter_cons, decide_False; [exact IHl|]. apply not_elem_of_nil.
  - rewrite IH. now apply count_step.
Qed.

Lemma split_length (ks1 ks2 l : list Z) :
  Forall (λ y, (y ∈ ks1 ∧ (y ∉ ks2)) ∨ ((y ∉ ks1) ∧ y ∈ ks2)) l ->
  length (filter (λ j, j ∈ ks1) l) + length (filter (λ j, j ∈ ks2) l)
  = length l.
Proof.
  induction 1 as [|y l Hy _ IH]; [reflexivity|].
  rewrite !filter_cons. destruct Hy as [[H1 H2]|[H1 H2]].
  - rewrite decide_True, decide_False by assumption. cbn [length]. lia.
  - rewrite decide_False, decide_True by assumption. cbn [length]. lia.
Qed.

Lemma dict_values_set_to_map (c : Z -> nat) (X : gset Z) :
  sum_list (dict_values (set_to_map (λ i, (i, c i)) X))
  = sum_list_with c (elements X).
Proof.
  unfold dict_values, set_to_map.
  rewrite map_to_list_to_map.
  - induction (elements X) as [|x xs IH]; [reflexivity|].
    cbn. now rewrite IH.
  - rewrite <- list_fmap_compose.
    replace ((fst ∘ (λ i, (i, c i))) <$> elements X) with (elements X).
    + apply NoDup_elements.
    + induction (elements X) as [|x xs IH]; [reflexivity|].
      cbn. now rewrite <- IH.
Qed.

(** C10. The two dictionaries of [histogram] partition the observed seat
    counts.  Every value of [simulations] is a key of exactly one of them:
    of [hist_dict_dem] when it is above 50, of [hist_dict_rep] otherwise.
    Every key is a value of [simulations] on the right side of 50 and maps
    to the number of its occurrences.  The values of both dictionaries
    together sum to the length of [simulations]. *)
Theorem histogram_partition (simulations : list Z) :
  (forall i, i ∈ simulations ->
     ((50 < i)%Z /\ is_Some (hist_dict_dem simulations !! i)
      /\ hist_dict_rep simulations !! i = None)
     \/ ((i <= 50)%Z /\ is_Some (hist_dict_rep simulations !! i)
         /\ hist_dict_dem simulations !! i = None))
  /\ (forall i c, hist_dict_dem simulations !! i = Some c ->
        i ∈ simulations /\ (50 < i)%Z /\ c = py_count i simulations)
  /\ (forall i c, hist_dict_rep simulations !! i = Some c ->
        i ∈ simulations /\ (i <= 50)%Z /\ c = py_count i simulations)
  /\ sum_list (dict_values (hist_dict_dem simulations))
     + sum_list (dict_values (hist_dict_rep simulations))
     = length simulations.
Proof.
  split; [|split; [|split]].
  - intros i Hin. destruct (Z.lt_ge_cases 50 i) as [Hgt|Hle].
    + left. split; [exact Hgt|]. split.
      * exists (py_count i simulations). now apply hist_dict_dem_lookup.
      * destruct (hist_dict_rep simulations !! i) as [c|] eqn:E; [|reflexivity].
        apply hist_dict_rep_lookup in E as (_ & ? & _). lia.
    + right. split; [exact Hle|]. split.
      * exists (py_count i simulations). now apply hist_dict_rep_lookup.
      * destruct (hist_dict_dem simulations !! i) as [c|] eqn:E; [|reflexivity].
        apply hist_dict_dem_lookup in E as (_ & ? & _). lia.
  - intros i c. apply hist_dict_dem_lookup.
  - intros i c. apply hist_dict_rep_lookup.
  - unfold hist_dict_dem, hist_dict_rep.
    rewrite !dict_values_set_to_map.
    rewrite !sum_counts by apply NoDup_elements.
    apply split_length. apply Forall_forall. intros y Hy.
    rewrite !elem_of_elements, !elem_of_filter, !elem_of_list_to_set.
    destruct (Z.lt_ge_cases 50 y); [left|right]; split; try tauto;
      intros [? _]; lia.
Qed.

(** ** Further properties of [plot_beta_binomial] *)

(** What a returned figure is made of. *)
Lemma plot_beta_binomial_inv (a b n_trials n_successes n_steps : Z)
    (fig : figure) :
  plot_beta_binomial a b n_trials n_successes n_steps = Returns fig ->
  np_linspace_unit n_steps = Returns (lst fig)
  /\ prior fig = map (beta_pdf a b) (lst fig)
  /\ likelihood fig
     = map (fun i => binom_pmf n_trials i n_successes) (lst fig)
  /\ posterior fig = np_multiply (prior fig) (likelihood fig)
  /\ vlines_positions a b n_trials n_successes = Returns (vlines_x fig)
  /\ exists t1 t2 t3,
       py_max (prior fig) = Returns t1
       /\ py_max (likelihood fig) = Returns t2
       /\ py_max (posterior fig) = Returns t3
       /\ vlines_ymax fig = Qmax (Qmax t1 t2) t3.
Proof.
  unfold plot_beta_binomial.
  destruct (np_linspace_unit n_steps) as [grid|e]; [|discriminate].
  cbn [mbind outcome_bind].
  destruct (vlines_positions a b n_trials n_successes) as [xs|e];
    [|discriminate].
  destruct (py_max (map (beta_pdf a b) grid)) as [t1|e] eqn:E1;
    [|discriminate].
  destruct (py_max (map (fun i => binom_pmf n_trials i n_successes) grid))
    as [t2|e] eqn:E2; [|discriminate].
  destruct (py_max (np_multiply (map (beta_pdf a b) grid)
              (map (fun i => binom_pmf n_trials i n_successes) grid)))
    as [t3|e] eqn:E3; [|discriminate].
  intros H. injection H as <-. cbn [lst prior likelihood posterior vlines_x
                                     vlines_ymax].
  repeat split; try reflexivity.
  exists t1, t2, t3. auto.
Qed.

Lemma np_linspace_unit_inv (num : Z) (grid : list Q) :
  np_linspace_unit num = Returns grid ->
  (0 <= num)%Z
  /\ grid = map (fun i => inject_Z (Z.of_nat i) / inject_Z (num - 1))%Q
                (seq 0 (Z.to_nat num)).
Proof.
  unfold np_linspace_unit. destruct (Z.ltb_spec num 0); [discriminate|].
  intros Hret. injection Hret as <-. split; [lia|reflexivity].
Qed.

Lemma py_max_empty_iff (l : list Q) : py_max l = Raises ValueError <-> l = [].
Proof. destruct l; cbn; split; congruence. Qed.

(** X1. When [plot_beta_binomial] fails.  For integer shapes [a, b >= 1]
    and [0 <= n_successes <= n_trials]: a negative [n_steps] ends in
    [ValueError] (from [np.linspace]); otherwise no trials end in
    [ZeroDivisionError] (from [n_successes / n_trials]); otherwise
    [n_steps = 0] ends in [ValueError] (from [max] of an empty list); in
    every other case the call returns a figure. *)
Theorem plot_beta_binomial_outcome (a b n_trials n_successes n_steps : Z) :
  (1 <= a)%Z -> (1 <= b)%Z -> (0 <= n_successes <= n_trials)%Z ->
  ((n_steps < 0)%Z ->
     plot_beta_binomial a b n_trials n_successes n_steps = Raises ValueError)
  /\ ((0 <= n_steps)%Z -> n_trials = 0%Z ->
        plot_beta_binomial a b n_trials n_successes n_steps
        = Raises ZeroDivisionError)
  /\ (n_steps = 0%Z -> (0 < n_trials)%Z ->
        plot_beta_binomial a b n_trials n_successes n_steps
        = Raises ValueError)
  /\ ((0 < n_steps)%Z -> (0 < n_trials)%Z ->
        exists fig,
          plot_beta_binomial a b n_trials n_successes n_steps = Returns fig).
Proof.
  intros Ha Hb Hk. split; [|split; [|split]].
  - intros Hs. unfold plot_beta_binomial, np_linspace_unit.
    destruct (Z.ltb_spec n_steps 0); [reflexivity|lia].
  - intros Hs ->. unfold plot_beta_binomial, np_linspace_unit.
    destruct (Z.ltb_spec n_steps 0); [lia|].
    cbn [mbind outcome_bind]. unfold vlines_positions.
    rewrite (py_div_int_returns a (a + b)) by lia.
    reflexivity.
  - intros -> Hn. unfold plot_beta_binomial, vlines_positions.
    rewrite !py_div_int_returns by lia. reflexivity.
  - intros Hs Hn.
    destruct (np_linspace_unit_returns n_steps Hs) as (x0 & xs & Hlin).
    unfold plot_beta_binomial, vlines_positions.
    rewrite Hlin, !py_div_int_returns by lia.
    cbn [mbind outcome_bind mret outcome_ret map np_multiply zip_with py_max].
    eexists. reflexivity.
Qed.

Lemma plot_beta_binomial_outcome_witness :
  ((200 < 0)%Z -> plot_beta_binomial 7 5 40 30 200 = Raises ValueError)
  /\ ((0 <= 200)%Z -> 40%Z = 0%Z ->
        plot_beta_binomial 7 5 40 30 200 = Raises ZeroDivisionError)
  /\ (200%Z = 0%Z -> (0 < 40)%Z ->
        plot_beta_binomial 7 5 40 30 200 = Raises ValueError)
  /\ ((0 < 200)%Z -> (0 < 40)%Z ->
        exists fig, plot_beta_binomial 7 5 40 30 200 = Returns fig).
Proof. apply (plot_beta_binomial_outcome 7 5 40 30 200); lia. Defined.

(** X2. A returned figure was computed on a positive number of grid points,
    and its grid and its three curves all have [n_steps] entries; there are
    three dashed lines. *)
Theorem plot_beta_binomial_lengths (a b n_trials n_successes n_steps : Z)
    (fig : figure) :
  plot_beta_binomial a b n_trials n_successes n_steps = Returns fig ->
  (0 < n_steps)%Z
  /\ length (lst fig) = Z.to_nat n_steps
  /\ length (prior fig) = Z.to_nat n_steps
  /\ length (likelihood fig) = Z.to_nat n_steps
  /\ length (posterior fig) = Z.to_nat n_steps
  /\ length (vlines_x fig) = 3%nat.
Proof.
  intros H. apply plot_beta_binomial_inv in H
    as (Hl & Hp & Hk & Hpost & Hv & (t1 & t2 & t3 & Ht1 & _)).
  apply np_linspace_unit_inv in Hl as [Hs Hl].
  assert (Hlen : length (lst fig) = Z.to_nat n_steps).
  { rewrite Hl, length_map, length_seq. reflexivity. }
  assert (Hlp : length (prior fig) = Z.to_nat n_steps).
  { rewrite Hp, length_map. exact Hlen. }
  assert (Hlk : length (likelihood fig) = Z.to_nat n_steps).
  { rewrite Hk, length_map. exact Hlen. }
  split; [|split; [|split; [|split; [|split]]]]; auto.
  - destruct (prior fig) as [|p ps] eqn:E; [discriminate|].
    cbn in Hlp. lia.
  - rewrite Hpost. unfold np_multiply. rewrite length_zip_with. lia.
  - unfold vlines_positions in Hv.
    destruct (py_div_int a (a + b)); [|discriminate].
    destruct (py_div_int n_successes n_trials); [|discriminate].
    destruct (py_div_int (a + n_successes) (a + b + n_trials));
      [|discriminate].
    injection Hv as <-. reflexivity.
Qed.

Lemma plot_beta_binomial_lengths_witness :
  exists fig,
    plot_beta_binomial 1 1 2 1 3 = Returns fig
    /\ (0 < 3)%Z
    /\ length (lst fig) = Z.to_nat 3
    /\ length (prior fig) = Z.to_nat 3
    /\ length (likelihood fig) = Z.to_nat 3
    /\ length (posterior fig) = Z.to_nat 3
    /\ length (vlines_x fig) = 3%nat.
Proof.
  eexists. split; [vm_compute; reflexivity|].
  apply (plot_beta_binomial_lengths 1 1 2 1 3). vm_compute. reflexivity.
Defined.

Lemma plot_beta_binomial_grid (a b n_trials n_successes n_steps : Z)
    (fig : figure) :
  plot_beta_binomial a b n_trials n_successes n_steps = Returns fig ->
  (0 < n_steps)%Z
  /\ lst fig = map (fun i => inject_Z (Z.of_nat i) / inject_Z (n_steps - 1))%Q
                   (seq 0 (Z.to_nat n_steps)).
Proof.
  intros Hret. apply plot_beta_binomial_inv in Hret
    as (Hl & Hp & _ & _ & _ & (t1 & _ & _ & Ht1 & _)).
  apply np_linspace_unit_inv in Hl as [Hs Hl]. split; [|exact Hl].
  destruct (Z.eq_dec n_steps 0%Z) as [->|]; [|lia].
  rewrite Hp, Hl in Ht1. discriminate.
Qed.

Lemma grid_lookup (n_steps : Z) (j : nat) (x : Q) :
  map (fun i => inject_Z (Z.of_nat i) / inject_Z (n_steps - 1))%Q
      (seq 0 (Z.to_nat n_steps)) !! j = Some x ->
  (j < Z.to_nat n_steps)%nat
  /\ x = (inject_Z (Z.of_nat j) / inject_Z (n_steps - 1))%Q.
Proof.
  rewrite map_lookup. intros Hj.
  apply fmap_Some in Hj as (i & Hi & ->).
  apply lookup_seq in Hi as [-> Hlt]. auto.
Qed.

Lemma grid_point_in_unit (n_steps : Z) (j : nat) :
  (j < Z.to_nat n_steps)%nat ->
  (0 <= inject_Z (Z.of_nat j) / inject_Z (n_steps - 1)
   /\ inject_Z (Z.of_nat j) / inject_Z (n_steps - 1) <= 1)%Q.
Proof.
  intros Hj. destruct (Z.eq_dec n_steps 1%Z) as [->|Hne].
  - assert (j = 0%nat) as -> by lia. split; discriminate.
  - replace (n_steps - 1)%Z with (Z.of_nat (Z.to_nat n_steps - 1)) by lia.
    apply fraction_in_unit; lia.
Qed.

(** X3. The grid of a returned figure lies in [0, 1], starts at 0, ends at
    1 when there are at least two points, and consecutive points are
    [1 / (n_steps - 1)] apart. *)
Theorem plot_beta_binomial_grid_unit (a b n_trials n_successes n_steps : Z)
    (fig : figure) :
  plot_beta_binomial a b n_trials n_successes n_steps = Returns fig ->
  (forall j x, lst fig !! j = Some x -> (0 <= x)%Q /\ (x <= 1)%Q)
  /\ (exists x0, lst fig !! 0%nat = Some x0 /\ (x0 == 0)%Q)
  /\ ((2 <= n_steps)%Z ->
      exists x1, lst fig !! (Z.to_nat n_steps - 1)%nat = Some x1
                 /\ (x1 == 1)%Q)
  /\ (forall j x y, lst fig !! j = Some x -> lst fig !! S j = Some y ->
        (y - x == 1 / inject_Z (n_steps - 1))%Q).
Proof.
  intros Hret. apply plot_beta_binomial_grid in Hret as [Hs Hl].
  rewrite Hl. split; [|split; [|split]].
  - intros j x Hj. apply grid_lookup in Hj as [Hlt ->].
    now apply grid_point_in_unit.
  - rewrite map_lookup.
    destruct (Z.to_nat n_steps) as [|m] eqn:E; [lia|].
    cbn. eexists. split; [reflexivity|]. unfold Qdiv. apply Qmult_0_l.
  - intros H2. rewrite map_lookup.
    rewrite (proj2 (lookup_seq 0 (Z.to_nat n_steps) (Z.to_nat n_steps - 1)
                      (Z.to_nat n_steps - 1)))
      by (split; lia).
    cbn. eexists. split; [reflexivity|].
    replace (Z.of_nat (Z.to_nat n_steps - 1)) with (n_steps - 1)%Z by lia.
    apply Qmult_inv_r. intros E. unfold Qeq in E. cbn in E. lia.
  - intros j x y Hx Hy.
    apply grid_lookup in Hx as [Hlt ->]. apply grid_lookup in Hy as [Hlt' ->].
    rewrite Nat2Z.inj_succ. unfold Z.succ. rewrite inject_Z_plus.
    field. intros E. unfold Qeq in E. cbn in E. lia.
Qed.

Lemma plot_beta_binomial_grid_unit_witness :
  exists fig,
    plot_beta_binomial 1 1 2 1 3 = Returns fig
    /\ (forall j x, lst fig !! j = Some x -> (0 <= x)%Q /\ (x <= 1)%Q)
    /\ (exists x0, lst fig !! 0%nat = Some x0 /\ (x0 == 0)%Q)
    /\ ((2 <= 3)%Z ->
        exists x1, lst fig !! (Z.to_nat 3 - 1)%nat = Some x1 /\ (x1 == 1)%Q)
    /\ (forall j x y, lst fig !! j = Some x -> lst fig !! S j = Some y ->
          (y - x == 1 / inject_Z (3 - 1))%Q).
Proof.
  eexists. split; [vm_compute; reflexivity|].
  apply (plot_beta_binomial_grid_unit 1 1 2 1 3). vm_compute. reflexivity.
Defined.

(** *** Heights *)








Lemma map_fmap {A B : Type} (f : A -> B) (l : list A) : map f l = f <$> l.
Proof. induction l as [|x l IH]; [reflexivity|]. cbn. now rewrite IH. Qed.




(** *** The three dashed lines *)

Lemma inject_Z_nonzero (z : Z) : z <> 0%Z -> ~ (inject_Z z == 0)%Q.
Proof. intros Hz E. unfold Qeq in E. cbn in E. lia. Qed.

Lemma frac_le (p q d1 d2 : Z) :
  (0 < d1)%Z -> (0 < d2)%Z ->
  (inject_Z p / inject_Z d1 <= inject_Z q / inject_Z d2)%Q
  <-> (p * d2 <= q * d1)%Z.
Proof.
  intros H1 H2. destruct d1 as [|d1|d1]; try lia.
  destruct d2 as [|d2|d2]; try lia.
  unfold Qle, Qdiv, Qmult, Qinv, inject_Z. cbn. lia.
Qed.

(** X5. The posterior-mean line is a compromise between the other two.
    When [a + b > 0] and [n_trials > 0] the three positions are computed, the
    third lies between the prior mean and [n_successes / n_trials], and it is
    their weighted average with weights [(a + b) / (a + b + n_trials)] and
    [n_trials / (a + b + n_trials)]. *)
Theorem posterior_mean_between (a b n_trials n_successes : Z) :
  (0 < a + b)%Z -> (0 < n_trials)%Z ->
  exists m_prior m_likelihood m_posterior,
    vlines_positions a b n_trials n_successes
    = Returns [m_prior; m_likelihood; m_posterior]
    /\ ((m_prior <= m_likelihood)%Q ->
        (m_prior <= m_posterior)%Q /\ (m_posterior <= m_likelihood)%Q)
    /\ ((m_likelihood <= m_prior)%Q ->
        (m_likelihood <= m_posterior)%Q /\ (m_posterior <= m_prior)%Q)
    /\ (m_posterior
        == inject_Z (a + b) / inject_Z (a + b + n_trials) * m_prior
           + inject_Z n_trials / inject_Z (a + b + n_trials) * m_likelihood)%Q.
Proof.
  intros Hab Hn. unfold vlines_positions.
  rewrite !py_div_int_returns by lia.
  cbn [mbind outcome_bind mret outcome_ret].
  do 3 eexists. split; [reflexivity|].
  rewrite !frac_le by lia.
  split; [|split]; try nia.
  rewrite !inject_Z_plus. field.
  rewrite <- !inject_Z_plus.
  split; [|split]; apply inject_Z_nonzero; lia.
Qed.

Lemma posterior_mean_between_witness :
  exists m_prior m_likelihood m_posterior,
    vlines_positions 7 5 40 30 = Returns [m_prior; m_likelihood; m_posterior]
    /\ ((m_prior <= m_likelihood)%Q ->
        (m_prior <= m_posterior)%Q /\ (m_posterior <= m_likelihood)%Q)
    /\ ((m_likelihood <= m_prior)%Q ->
        (m_likelihood <= m_posterior)%Q /\ (m_posterior <= m_prior)%Q)
    /\ (m_posterior
        == inject_Z (7 + 5) / inject_Z (7 + 5 + 40) * m_prior
           + inject_Z 40 / inject_Z (7 + 5 + 40) * m_likelihood)%Q.
Proof. apply (posterior_mean_between 7 5 40 30); lia. Defined.




(** ** Further properties of the simulated elections *)

Lemma np_sum_perm (l1 l2 : list Z) : l1 ≡ₚ l2 -> np_sum l1 = np_sum l2.
Proof.
  induction 1 as [|x l1 l2 _ IH|x y l|l1 l2 l3 _ IH1 _ IH2];
    rewrite ?np_sum_cons; lia.
Qed.

(** X9. The estimate does not depend on the order of the draws. *)
Theorem winProbability_perm (sample1 sample2 : list Q) (threshold : Q) :
  sample1 ≡ₚ sample2 ->
  winProbability sample1 threshold = winProbability sample2 threshold.
Proof.
  intros Hperm. unfold winProbability, np_mean.
  assert (Hp : elections_at threshold sample1
               ≡ₚ elections_at threshold sample2).
  { unfold elections_at. rewrite !map_fmap. now apply fmap_Permutation. }
  rewrite (np_sum_perm _ _ Hp), (Permutation_length Hp).
  destruct (elections_at threshold sample1) as [|e1 l1] eqn:E1;
    destruct (elections_at threshold sample2) as [|e2 l2] eqn:E2;
    try reflexivity.
  - apply Permutation_length in Hp. discriminate.
  - apply Permutation_length in Hp. discriminate.
Qed.

Lemma winProbability_perm_witness :
  winProbability [3 # 4; 1 # 4; 1 # 2] (1 # 2)
  = winProbability [1 # 2; 3 # 4; 1 # 4] (1 # 2).
Proof.
  apply (winProbability_perm [3 # 4; 1 # 4; 1 # 2] [1 # 2; 3 # 4; 1 # 4]).
  change [1 # 2; 3 # 4; 1 # 4] with ([1 # 2] ++ [3 # 4; 1 # 4]).
  change [3 # 4; 1 # 4; 1 # 2] with ([3 # 4; 1 # 4] ++ [1 # 2]).
  apply Permutation_app_comm.
Defined.

Lemma wins_zero_iff (threshold : Q) (sample : list Q) :
  wins threshold sample = 0%nat
  <-> Forall (fun i => (i <= threshold)%Q) sample.
Proof.
  unfold wins. induction sample as [|x xs IH]; cbn [List.filter].
  - split; [constructor|reflexivity].
  - rewrite Forall_cons. destruct (Qgt_bool x threshold) eqn:E.
    + apply Qgt_bool_iff in E. cbn [length]. split; [lia|].
      intros [Hle _]. exfalso. exact (Qlt_not_le _ _ E Hle).
    + rewrite IH. split; [|tauto]. intros H. split; [|exact H].
      apply Qnot_lt_le. intros Hlt. apply Qgt_bool_iff in Hlt. congruence.
Qed.

Lemma wins_all_iff (threshold : Q) (sample : list Q) :
  wins threshold sample = length sample
  <-> Forall (fun i => (threshold < i)%Q) sample.
Proof.
  induction sample as [|x xs IH].
  - split; [constructor|reflexivity].
  - rewrite Forall_cons. pose proof (wins_le_length threshold xs) as Hle.
    unfold wins in *. cbn [List.filter].
    destruct (Qgt_bool x threshold) eqn:E; cbn [length].
    + apply Qgt_bool_iff in E. rewrite <- IH. split; [|lia].
      intros H. split; [exact E|lia].
    + split; [lia|]. intros [Hlt _]. apply Qgt_bool_iff in Hlt. congruence.
Qed.

Lemma frac_eq (p d q : Z) :
  (0 < d)%Z ->
  (inject_Z p / inject_Z d == inject_Z q)%Q <-> (p = q * d)%Z.
Proof.
  intros Hd. destruct d as [|d|d]; try lia.
  unfold Qeq, Qdiv, Qmult, Qinv, inject_Z. cbn. lia.
Qed.

(** X10. On a non-empty sample the estimate is 0 exactly when no draw is
    above the threshold, and 1 exactly when every draw is. *)
Theorem winProbability_extremes (sample : list Q) (threshold : Q) :
  sample <> [] ->
  exists p,
    winProbability sample threshold = Finite p
    /\ ((p == 0)%Q <-> Forall (fun i => (i <= threshold)%Q) sample)
    /\ ((p == 1)%Q <-> Forall (fun i => (threshold < i)%Q) sample).
Proof.
  intros Hne. eexists. split.
  - unfold winProbability, np_mean.
    rewrite np_sum_elections, elections_at_length.
    destruct sample as [|x xs]; [congruence|]. reflexivity.
  - assert (Hlen : (0 < Z.of_nat (length sample))%Z).
    { destruct sample; [congruence|cbn; lia]. }
    rewrite <- wins_zero_iff, <- wins_all_iff.
    change 0%Q with (inject_Z 0). change 1%Q with (inject_Z 1).
    rewrite !frac_eq by exact Hlen. split; split; lia.
Qed.

Lemma winProbability_extremes_witness :
  exists p,
    winProbability [3 # 4; 1 # 4] (1 # 2) = Finite p
    /\ ((p == 0)%Q <-> Forall (fun i => (i <= 1 # 2)%Q) [3 # 4; 1 # 4])
    /\ ((p == 1)%Q <-> Forall (fun i => (1 # 2 < i)%Q) [3 # 4; 1 # 4]).
Proof. apply (winProbability_extremes [3 # 4; 1 # 4] (1 # 2)). discriminate. Defined.

(** ** Sampling from an unchecked posterior *)

Section SamplingCell.
Variable rng : Type.
Variable mt_seed : Z -> rng.
Variable beta_variate : Q -> Q -> rng -> Q * rng.

End SamplingCell.


(** ** Further properties of [histogram] *)

Lemma py_count_pos (i : Z) (l : list Z) : i ∈ l -> (0 < py_count i l)%nat.
Proof.
  intros Hin. unfold py_count.
  assert (Hf : i ∈ filter (λ j, j = i) l)
    by (apply list_elem_of_filter; auto).
  destruct (filter (λ j, j = i) l); [inversion Hf|cbn; lia].
Qed.

Lemma filter_ext_in (P1 P2 : Z -> Prop)
    `{!∀ x, Decision (P1 x), !∀ x, Decision (P2 x)} (l : list Z) :
  (forall x, x ∈ l -> (P1 x <-> P2 x)) -> filter P1 l = filter P2 l.
Proof.
  induction l as [|y l IH]; intros Hext; [reflexivity|].
  rewrite !filter_cons.
  assert (Hy : P1 y <-> P2 y) by (apply Hext; constructor).
  rewrite IH by (intros x Hx; apply Hext; now apply list_elem_of_further).
  destruct (decide (P1 y)), (decide (P2 y)); tauto || reflexivity.
Qed.

Lemma bar_lookup (d : gmap Z nat) (j : nat) (x : Z) :
  dict_keys d !! j = Some x ->
  exists top, dict_values d !! j = Some top /\ d !! x = Some top.
Proof.
  unfold dict_keys, dict_values. intros Hj.
  apply list_lookup_fmap_Some in Hj as ([k v] & -> & Hkv).
  exists v. split.
  - now apply (list_lookup_fmap_Some_2 snd) in Hkv.
  - apply elem_of_map_to_list. apply list_elem_of_lookup. eauto.
Qed.

(** X12. Every bar of [histogram] has a positive height: the bar at
    position [x] is as high as the number of occurrences of [x] in
    [simulations]; blue bars are above 50, red bars at 50 or below. *)
Theorem histogram_bars (simulations : list Z) (j : nat) (x : Z) :
  (vbar_x (histogram simulations).1 !! j = Some x ->
     vbar_top (histogram simulations).1 !! j
     = Some (py_count x simulations)
     /\ (0 < py_count x simulations)%nat /\ (50 < x)%Z)
  /\ (vbar_x (histogram simulations).2 !! j = Some x ->
        vbar_top (histogram simulations).2 !! j
        = Some (py_count x simulations)
        /\ (0 < py_count x simulations)%nat /\ (x <= 50)%Z).
Proof.
  cbn [histogram fst snd vbar_x vbar_top]. split; intros Hj.
  - apply bar_lookup in Hj as (top & Htop & Hd).
    apply hist_dict_dem_lookup in Hd as (Hin & Hgt & ->).
    split; [exact Htop|]. split; [now apply py_count_pos|exact Hgt].
  - apply bar_lookup in Hj as (top & Htop & Hd).
    apply hist_dict_rep_lookup in Hd as (Hin & Hle & ->).
    split; [exact Htop|]. split; [now apply py_count_pos|exact Hle].
Qed.

Lemma dict_keys_elem (d : gmap Z nat) (i : Z) :
  i ∈ dict_keys d <-> is_Some (d !! i).
Proof.
  unfold dict_keys. rewrite list_elem_of_fmap. split.
  - intros ([k v] & -> & Hkv). apply elem_of_map_to_list in Hkv. eauto.
  - intros [v Hv]. exists (i, v). split; [reflexivity|].
    now apply elem_of_map_to_list.
Qed.

(** X13. The blue bars stand at the distinct values of [simulations] above
    50, the red bars at the distinct values up to 50, and no two bars share
    a position. *)
Theorem histogram_bar_positions (simulations : list Z) :
  (forall i, i ∈ vbar_x (histogram simulations).1
             <-> i ∈ simulations /\ (50 < i)%Z)
  /\ (forall i, i ∈ vbar_x (histogram simulations).2
                <-> i ∈ simulations /\ (i <= 50)%Z)
  /\ NoDup (vbar_x (histogram simulations).1
            ++ vbar_x (histogram simulations).2).
Proof.
  cbn [histogram fst snd vbar_x].
  assert (Hdem : forall i, i ∈ dict_keys (hist_dict_dem simulations)
                           <-> i ∈ simulations /\ (50 < i)%Z).
  { intros i. rewrite dict_keys_elem. split.
    - intros [c Hc]. apply hist_dict_dem_lookup in Hc. tauto.
    - intros [Hin Hgt]. exists (py_count i simulations).
      now apply hist_dict_dem_lookup. }
  assert (Hrep : forall i, i ∈ dict_keys (hist_dict_rep simulations)
                           <-> i ∈ simulations /\ (i <= 50)%Z).
  { intros i. rewrite dict_keys_elem. split.
    - intros [c Hc]. apply hist_dict_rep_lookup in Hc. tauto.
    - intros [Hin Hle]. exists (py_count i simulations).
      now apply hist_dict_rep_lookup. }
  split; [exact Hdem|]. split; [exact Hrep|].
  apply NoDup_app. split; [apply NoDup_fst_map_to_list|].
  split; [|apply NoDup_fst_map_to_list].
  intros i Hi Hi'. apply Hdem in Hi. apply Hrep in Hi'. lia.
Qed.

Lemma elements_filter_set (P : Z -> Prop) `{!∀ x, Decision (P x)}
    (l : list Z) :
  filter (λ j, j ∈ elements (filter P (list_to_set l : gset Z))) l
  = filter P l.
Proof.
  apply filter_ext_in. intros x Hx.
  rewrite elem_of_elements, elem_of_filter, elem_of_list_to_set. tauto.
Qed.

(** X14. The blue bars add up to the number of simulations with more than
    50 seats, the red bars to the number with at most 50. *)
Theorem histogram_totals (simulations : list Z) :
  sum_list (vbar_top (histogram simulations).1)
  = length (filter (λ i, (50 < i)%Z) simulations)
  /\ sum_list (vbar_top (histogram simulations).2)
     = length (filter (λ i, (i <= 50)%Z) simulations).
Proof.
  cbn [histogram fst snd vbar_top]. unfold hist_dict_dem, hist_dict_rep.
  rewrite !dict_values_set_to_map.
  rewrite !sum_counts by apply NoDup_elements.
  now rewrite !elements_filter_set.
Qed.




(** ** Properties of [map_results] *)

Lemma drop_AK_HI_lookup (states : gmap string state) (k : string)
    (st : state) :
  drop_AK_HI states !! k = Some st
  <-> states !! k = Some st /\ k ≠ "AK"%string /\ k ≠ "HI"%string.
Proof.
  unfold drop_AK_HI. rewrite map_lookup_filter_Some. cbn. tauto.
Qed.

Lemma drop_AK_HI_delete (states : gmap string state) :
  drop_AK_HI states = delete "AK"%string (delete "HI"%string states).
Proof.
  apply map_eq. intros k. apply option_eq. intros st.
  rewrite drop_AK_HI_lookup, !lookup_delete_Some. split.
  - intros (H & H1 & H2). repeat split; congruence.
  - intros (H1 & H2 & H). repeat split; congruence.
Qed.

Lemma drop_AK_HI_size (states : gmap string state) :
  (size (drop_AK_HI states)
   + match states !! "AK"%string with Some _ => 1 | None => 0 end
   + match states !! "HI"%string with Some _ => 1 | None => 0 end)%nat
  = size states.
Proof.
  rewrite drop_AK_HI_delete, !map_size_delete.
  rewrite lookup_delete_ne by discriminate.
  destruct (states !! "AK"%string) as [s1|] eqn:E1;
    destruct (states !! "HI"%string) as [s2|] eqn:E2; cbn [id].
  - assert (2 <= size states)%nat; [|lia].
    rewrite <- (insert_id states _ _ E1), <- (insert_delete_eq states).
    rewrite map_size_insert_None by apply lookup_delete_eq.
    assert (delete "AK"%string states !! "HI"%string = Some s2)
      by (rewrite lookup_delete_ne by discriminate; exact E2).
    assert (size (delete "AK"%string states) ≠ 0)%nat; [|lia].
    apply map_size_ne_0_lookup. eauto.
  - assert (size states ≠ 0)%nat; [|lia].
    apply map_size_ne_0_lookup. eauto.
  - assert (size states ≠ 0)%nat; [|lia].
    apply map_size_ne_0_lookup. eauto.
  - lia.
Qed.

Section DashboardFacts.
Variable rng : Type.
Variable uniform_variate : rng -> Q * rng.

Lemma np_random_uniform_unit_length (size : nat) (g : rng) :
  length (np_random_uniform_unit rng uniform_variate size g).1 = size.
Proof.
  revert g. induction size as [|n IH]; intros g; [reflexivity|].
  cbn [np_random_uniform_unit].
  destruct (uniform_variate g) as [u g1]. specialize (IH g1).
  destruct (np_random_uniform_unit rng uniform_variate n g1) as [us g2].
  cbn in *. now rewrite IH.
Qed.

Lemma map_results_columns (states : gmap string state) (g : rng) :
  let data := (map_results rng uniform_variate states g).1 in
  data_x data = lons <$> state_values (drop_AK_HI states)
  /\ data_y data = lats <$> state_values (drop_AK_HI states)
  /\ data_name data = name <$> state_values (drop_AK_HI states)
  /\ data_demrate data
     = map (Qmult 100) (np_random_uniform_unit rng uniform_variate 49 g).1.
Proof.
  unfold map_results.
  destruct (np_random_uniform_unit rng uniform_variate 49 g) as [us g'].
  cbn [fst data_x data_y data_name data_demrate].
  rewrite !map_fmap. auto.
Qed.

(** X16. Each row of the map data (the same index in the columns [x], [y]
    and [name]) holds the longitudes, latitudes and name of one state of the
    input other than AK and HI, and every such state has a row. *)
Theorem map_results_rows (states : gmap string state) (g : rng) :
  let data := (map_results rng uniform_variate states g).1 in
  (forall j nm, data_name data !! j = Some nm ->
     exists k st,
       states !! k = Some st /\ k ≠ "AK"%string /\ k ≠ "HI"%string
       /\ nm = name st
       /\ data_x data !! j = Some (lons st)
       /\ data_y data !! j = Some (lats st))
  /\ (forall k st,
        states !! k = Some st -> k ≠ "AK"%string -> k ≠ "HI"%string ->
        exists j,
          data_name data !! j = Some (name st)
          /\ data_x data !! j = Some (lons st)
          /\ data_y data !! j = Some (lats st)).
Proof.
  intros data.
  destruct (map_results_columns states g) as (Hx & Hy & Hn & _).
  fold data in Hx, Hy, Hn. rewrite Hx, Hy, Hn. clear Hx Hy Hn.
  unfold state_values. split.
  - intros j nm Hj.
    apply list_lookup_fmap_Some in Hj as (st & -> & Hst).
    pose proof Hst as Hkv.
    apply list_lookup_fmap_Some in Hkv as ([k st'] & E & Hkv).
    cbn in E. subst st'.
    assert (Hin : drop_AK_HI states !! k = Some st).
    { apply elem_of_map_to_list, list_elem_of_lookup. eauto. }
    apply drop_AK_HI_lookup in Hin as (Hin & H1 & H2).
    exists k, st. repeat split; auto.
    + now apply (list_lookup_fmap_Some_2 lons) in Hst.
    + now apply (list_lookup_fmap_Some_2 lats) in Hst.
  - intros k st Hin H1 H2.
    assert (Hd : drop_AK_HI states !! k = Some st)
      by (apply drop_AK_HI_lookup; auto).
    apply elem_of_map_to_list, list_elem_of_lookup in Hd as [j Hj].
    apply (list_lookup_fmap_Some_2 snd) in Hj. cbn in Hj.
    exists j. repeat split.
    + now apply (list_lookup_fmap_Some_2 name) in Hj.
    + now apply (list_lookup_fmap_Some_2 lons) in Hj.
    + now apply (list_lookup_fmap_Some_2 lats) in Hj.
Qed.

(** X17. The columns [x], [y] and [name] have one entry per state of the
    input other than AK and HI, while [demrate] always has 49: the four
    columns have a common length only for an input with 49 such states. *)
Theorem map_results_lengths (states : gmap string state) (g : rng) :
  let data := (map_results rng uniform_variate states g).1 in
  let remaining :=
    (size states
     - match states !! "AK"%string with Some _ => 1 | None => 0 end
     - match states !! "HI"%string with Some _ => 1 | None => 0 end)%nat in
  length (data_x data) = remaining
  /\ length (data_y data) = remaining
  /\ length (data_name data) = remaining
  /\ length (data_demrate data) = 49%nat.
Proof.
  intros data remaining.
  destruct (map_results_columns states g) as (Hx & Hy & Hn & Hd).
  fold data in Hx, Hy, Hn, Hd. rewrite Hx, Hy, Hn, Hd.
  rewrite length_map, !length_fmap, np_random_uniform_unit_length.
  unfold state_values. rewrite length_fmap, length_map_to_list.
  pose proof (drop_AK_HI_size states) as Hsize.
  subst remaining. repeat split; lia.
Qed.
End DashboardFacts.

(** ** Composing updates *)

(** X8. Updates compose.  Updating with two observations in turn gives the
    same shape as one update with the pooled counts, in either order, and an
    update raises [alpha + beta] by the number of trials. *)
Theorem update_pooled (prior : BetaParams) (obs1 obs2 : SurveyObservation) :
  let pooled := {| trials := trials obs1 + trials obs2;
                   successes := successes obs1 + successes obs2 |} in
  (alpha (update (update prior obs1) obs2) == alpha (update prior pooled))%Q
  /\ (beta (update (update prior obs1) obs2) == beta (update prior pooled))%Q
  /\ (alpha (update (update prior obs1) obs2)
      == alpha (update (update prior obs2) obs1))%Q
  /\ (beta (update (update prior obs1) obs2)
      == beta (update (update prior obs2) obs1))%Q
  /\ (alpha (update prior obs1) + beta (update prior obs1)
      == alpha prior + beta prior + inject_Z (trials obs1))%Q.
Proof.
  cbn [update alpha beta trials successes].
  replace (trials obs1 + trials obs2 - (successes obs1 + successes obs2))%Z
    with ((trials obs1 - successes obs1) + (trials obs2 - successes obs2))%Z
    by lia.
  unfold Z.sub. rewrite !inject_Z_plus, !inject_Z_opp.
  repeat split; ring.
Qed.

(** X7. The plot and the sampling cell agree.  For integer shapes, when the
    three divisions of [plot_beta_binomial] are defined, its first dashed
    line is the mean of the prior and its third the mean of the shape
    [update] computes, the one the sampling cell draws from. *)
Theorem plotted_mean_is_posterior_mean (a b n_trials n_successes : Z) :
  (a + b)%Z <> 0%Z -> n_trials <> 0%Z -> (a + b + n_trials)%Z <> 0%Z ->
  exists m_prior m_likelihood m_posterior p q,
    vlines_positions a b n_trials n_successes
    = Returns [m_prior; m_likelihood; m_posterior]
    /\ beta_mean {| alpha := inject_Z a; beta := inject_Z b |} = Returns p
    /\ (p == m_prior)%Q
    /\ beta_mean (update {| alpha := inject_Z a; beta := inject_Z b |}
                         {| trials := n_trials; successes := n_successes |})
       = Returns q
    /\ (q == m_posterior)%Q.
Proof.
  intros Hab Hn Habn. unfold vlines_positions.
  rewrite !py_div_int_returns by assumption.
  cbn [mbind outcome_bind mret outcome_ret].
  do 5 eexists. split; [reflexivity|].
  unfold beta_mean, py_div. cbn [update alpha beta trials successes].
  assert (E1 : (inject_Z a + inject_Z b == inject_Z (a + b))%Q)
    by (rewrite inject_Z_plus; reflexivity).
  assert (E2 : (inject_Z a + inject_Z n_successes
                + (inject_Z b + inject_Z (n_trials - n_successes))
                == inject_Z (a + b + n_trials))%Q).
  { unfold Z.sub. rewrite !inject_Z_plus, inject_Z_opp. ring. }
  destruct (Qeq_bool (inject_Z a + inject_Z b) 0) eqn:B1.
  { apply Qeq_bool_eq in B1. rewrite E1 in B1.
    exfalso. revert B1. now apply inject_Z_nonzero. }
  destruct (Qeq_bool (inject_Z a + inject_Z n_successes
                      + (inject_Z b + inject_Z (n_trials - n_successes))) 0)
    eqn:B2.
  { apply Qeq_bool_eq in B2. rewrite E2 in B2.
    exfalso. revert B2. now apply inject_Z_nonzero. }
  split; [reflexivity|]. split; [now rewrite E1|].
  split; [reflexivity|].
  rewrite E2, (inject_Z_plus a n_successes). reflexivity.
Qed.

Lemma plotted_mean_is_posterior_mean_witness :
  exists m_prior m_likelihood m_posterior p q,
    vlines_positions 7 5 40 30
    = Returns [m_prior; m_likelihood; m_posterior]
    /\ beta_mean {| alpha := inject_Z 7; beta := inject_Z 5 |} = Returns p
    /\ (p == m_prior)%Q
    /\ beta_mean (update {| alpha := inject_Z 7; beta := inject_Z 5 |}
                         {| trials := 40; successes := 30 |})
       = Returns q
    /\ (q == m_posterior)%Q.
Proof. apply (plotted_mean_is_posterior_mean 7 5 40 30); lia. Defined.
